(** * Auto Form Recovery: the content script's identity, classification and
    persistence logic, embedded in Rocq.

    The definitions below transcribe the content script: [shouldSaveField],
    [getFormKey], [isLoginForm], [saveFormData], [restoreFormData],
    [showRestoreNotification], [monitorForm] and [debounce].  The DOM, the
    clock and [chrome.storage.local] are passed explicitly. *)

From Stdlib Require Import ZArith Ascii String List Bool Lia.
From stdpp Require Import base option list strings gmap pretty.

Local Open Scope string_scope.

(** ** JavaScript strings and values *)

Module JS.

(** [String.prototype.toLowerCase], on the ASCII range: bytes above 127
    are left alone (the keywords the script looks for are all ASCII). *)
Definition lowerChar (c : ascii) : ascii :=
  let n := N_of_ascii c in
  if ((65 <=? n) && (n <=? 90))%N then ascii_of_N (n + 32) else c.

Fixpoint toLowerCase (s : string) : string :=
  match s with
  | EmptyString => EmptyString
  | String c rest => String (lowerChar c) (toLowerCase rest)
  end.

(** [s.includes(sub)] *)
Fixpoint includes (s sub : string) : bool :=
  String.prefix sub s ||
  match s with
  | EmptyString => false
  | String _ rest => includes rest sub
  end.

(** Truthiness of a string: only [''] is falsy. *)
Definition truthy (s : string) : bool := negb (bool_decide (s = "")).

(** [a || b] on strings. *)
Definition or_else (a b : string) : string := if truthy a then a else b.

(** [x || ''] where [x] is a string or [null]. *)
Definition or_empty (x : option string) : string := default "" x.

(** [[a, b, c, d].join(' ')] *)
Fixpoint join (sep : string) (parts : list string) : string :=
  match parts with
  | [] => ""
  | [p] => p
  | p :: rest => p +:+ sep +:+ join sep rest
  end.

(** [arr.indexOf(x)] on an array of object references: the position of the
    first element identical to [x], or [-1]. *)
Fixpoint indexOf_from (i : Z) (arr : list nat) (x : nat) : Z :=
  match arr with
  | [] => (-1)%Z
  | y :: rest => if bool_decide (y = x) then i else indexOf_from (i + 1)%Z rest x
  end.

Definition indexOf (arr : list nat) (x : nat) : Z := indexOf_from 0%Z arr x.

(** The primitives a field record holds or a lookup yields. *)
Inductive value : Type :=
| VStr (s : string)
| VBool (b : bool)
| VUndefined.

(** ToBoolean and ToString, as applied by the [checked] and [value]
    setters of a control. *)
Definition toBoolean (v : value) : bool :=
  match v with
  | VStr s => truthy s
  | VBool b => b
  | VUndefined => false
  end.

Definition toString (v : value) : string :=
  match v with
  | VStr s => s
  | VBool true => "true"
  | VBool false => "false"
  | VUndefined => "undefined"
  end.

(** A plain object [{}] holding primitives, as a finite map from its own
    property names. *)
Abbreviation object := (gmap string value).

(** [o[k] = v] for a primitive [v]: the inherited [__proto__] setter
    swallows the assignment of a primitive, every other name becomes an own property. *)
Definition set (k : string) (v : value) (o : object) : object :=
  if bool_decide (k = "__proto__") then o else <[k := v]> o.

(** [o[k]] *)
Definition get (o : object) (k : string) : value := default VUndefined (o !! k).

(** Outcome of an expression that may raise a TypeError. *)
Inductive completion (A : Type) : Type :=
| Normal (a : A)
| Throw.
Arguments Normal {A} a.
Arguments Throw {A}.

(** [o.hasOwnProperty(k)]: the method is looked up on [o] first, so an own
    property called [hasOwnProperty] (a primitive here) shadows the
    inherited method and the call raises. *)
Definition hasOwnProperty (o : object) (k : string) : completion bool :=
  if bool_decide (is_Some (o !! "hasOwnProperty")) then Throw
  else Normal (bool_decide (is_Some (o !! k))).

(** Sequencing: a throw cuts the rest short. *)
Definition bind {A B : Type} (c : completion A) (k : A → completion B) : completion B :=
  match c with
  | Normal a => k a
  | Throw => Throw
  end.

(** The state a call leaves behind when a throw means it changed nothing. *)
Definition orElse {A : Type} (c : completion A) (unchanged : A) : A :=
  match c with
  | Normal a => a
  | Throw => unchanged
  end.

End JS.

(** [x ← c; k] runs [k] on the value of [c] unless [c] throws. *)
Global Instance completion_bind : MBind JS.completion := λ A B k c, JS.bind c k.

(** ** The DOM as the script sees it *)

(** A form control or any other element.  [el_attributes] is what
    [getAttribute] reads; the other fields are the IDL properties the script
    reads ([el.name], [el.id], [el.type], [el.value], [el.checked],
    [el.autocomplete]), a missing property being the empty string. *)
Record Element : Type := mkElement {
  el_tagName : string;
  el_attributes : gmap string string;
  el_name : string;
  el_id : string;
  el_type : string;
  el_value : string;
  el_checked : bool;
  el_autocomplete : string
}.

Definition getAttribute (el : Element) (a : string) : option string :=
  el_attributes el !! a.

Definition hasTag (tag : string) (el : Element) : bool :=
  bool_decide (JS.toLowerCase (el_tagName el) = tag).

(** A [<form>]: its node identity, its attributes, its descendants in tree
    order (what [querySelector]/[querySelectorAll] walk), its listed
    controls in tree order (the collection the browser keeps behind
    [form.elements]), and the entries of its past names map that still
    resolve. *)
Record Form : Type := mkForm {
  f_node : nat;
  f_attributes : gmap string string;
  f_descendants : list Element;
  f_elements : list Element;
  f_pastNames : list (string * Element)
}.

Definition formAttribute (form : Form) (a : string) : option string :=
  f_attributes form !! a.

(** *** Named properties of a form

    A form answers [form[p]] with its own controls before it looks at its
    prototype: the listed controls whose [id] or [name] is [p], failing
    those the [img] descendants so named, failing those the control the past
    names map keeps under [p].  Such a property shadows every built-in of
    the same name: [form.id], [form.elements] and the methods alike. *)

Definition answersTo (p : string) (el : Element) : bool :=
  bool_decide (getAttribute el "id" = Some p) ||
  bool_decide (getAttribute el "name" = Some p).

Definition named (form : Form) (p : string) : list Element :=
  match List.filter (answersTo p) (f_elements form) with
  | [] =>
      match List.filter (λ el, hasTag "img" el && answersTo p el) (f_descendants form) with
      | [] =>
          match List.find (λ entry, bool_decide (entry.1 = p)) (f_pastNames form) with
          | Some entry => [entry.2]
          | None => []
          end
      | images => images
      end
  | controls => controls
  end.

(** [form.p(...)] for a method [p] of the prototype: the call gives
    [result] when nothing shadows [p], and raises a TypeError when [form.p]
    is a control or a list of controls. *)
Definition method {A : Type} (form : Form) (p : string) (result : A) : JS.completion A :=
  match named form p with
  | [] => JS.Normal result
  | _ => JS.Throw
  end.

(** [form.id] when nothing shadows it: it reflects the [id] attribute. *)
Definition idAttribute (form : Form) : string :=
  JS.or_empty (formAttribute form "id").

(** What a template literal makes of the nodes a shadowed property holds:
    one node prints as its interface, several as a RadioNodeList. *)
Definition interfaceName (el : Element) : string :=
  let tag := JS.toLowerCase (el_tagName el) in
  if bool_decide (tag = "input") then "HTMLInputElement"
  else if bool_decide (tag = "select") then "HTMLSelectElement"
  else if bool_decide (tag = "textarea") then "HTMLTextAreaElement"
  else if bool_decide (tag = "button") then "HTMLButtonElement"
  else if bool_decide (tag = "fieldset") then "HTMLFieldSetElement"
  else if bool_decide (tag = "output") then "HTMLOutputElement"
  else if bool_decide (tag = "object") then "HTMLObjectElement"
  else if bool_decide (tag = "img") then "HTMLImageElement"
  else "HTMLElement".

Definition objectString (nodes : list Element) : string :=
  match nodes with
  | [node] => "[object " +:+ interfaceName node +:+ "]"
  | _ => "[object RadioNodeList]"
  end.

(** [Array.from(form.elements)]: the listed controls when nothing shadows
    [elements]; the nodes of the RadioNodeList when several nodes answer to
    that name; nothing when one node does (an element is no array; a select
    yields its options, which are no controls and which both loops pass
    over for their tag). *)
Definition elementsOf (form : Form) : list Element :=
  match named form "elements" with
  | [] => f_elements form
  | [_] => []
  | nodes => nodes
  end.

(** The page: [location.origin], [location.pathname], what
    [Array.from(document.forms)] holds, as node identities in document
    order, and the number of elements carrying the class
    [auto-form-recovery-notice]. *)
Record Document : Type := mkDocument {
  origin : string;
  pathname : string;
  forms : list nat;
  notices : nat
}.

(** [querySelectorAll(tag)] over the descendants of a form. *)
Definition querySelectorAll (tag : string) (form : Form) : list Element :=
  List.filter (hasTag tag) (f_descendants form).

(** [querySelector('input[type="password"]')]; selectors compare the value
    of [type] without regard to ASCII case in HTML documents. *)
Definition isPasswordInput (el : Element) : bool :=
  hasTag "input" el &&
  bool_decide (JS.toLowerCase (JS.or_empty (getAttribute el "type")) = "password").

Definition querySelector_password (form : Form) : option Element :=
  List.find isPasswordInput (f_descendants form).

(** ** Settings and storage *)

(** [extensionSettings]; [ignoreLoginForms] may be missing from a stored
    record, a missing or zero [retentionDays] is [0]. *)
Record Settings : Type := mkSettings {
  enabled : bool;
  retentionDays : Z;
  ignoreDomains : list string;
  ignoreLoginForms : option bool
}.

Definition defaultSettings : Settings :=
  {| enabled := true; retentionDays := 30; ignoreDomains := [];
     ignoreLoginForms := Some true |}.

(** A stored snapshot [{ data, timestamp }]. *)
Record Entry : Type := mkEntry {
  data : JS.object;
  timestamp : Z
}.

(** The form snapshots of [chrome.storage.local], by form key.  The
    [settings] record lives under a key no form key can equal. *)
Abbreviation Storage := (gmap string Entry).

(** ** shouldSaveField *)

Definition shouldSaveField (el : Element) : bool :=
  let tag := JS.toLowerCase (el_tagName el) in
  if bool_decide (tag = "input") &&
     (let type := JS.toLowerCase (JS.or_empty (getAttribute el "type")) in
      bool_decide (type ∈ ["password"; "hidden"; "file"]))
  then false
  else if bool_decide (el_autocomplete el = "off") then false
  else if bool_decide (getAttribute el "data-autorecovery" = Some "false") then false
  else true.

(** ** getFormKey *)

(** [form.id] is the [id] attribute, or the nodes that shadow it, which are
    truthy and print as objects; [form.getAttribute] is called only when
    [form.id] is empty. *)
Definition getFormKey (doc : Document) (form : Form) : JS.completion string :=
  let url := origin doc +:+ pathname doc in
  match named form "id" with
  | [] =>
      if JS.truthy (idAttribute form)
      then JS.Normal (url +:+ "::" +:+ idAttribute form)
      else
        name ← method form "getAttribute" (formAttribute form "name");
        let identifier := JS.or_empty name in
        let idx := if JS.truthy identifier then ""
                   else pretty (JS.indexOf (forms doc) (f_node form)) in
        JS.Normal (url +:+ "::" +:+ JS.or_else identifier idx)
  | nodes => JS.Normal (url +:+ "::" +:+ objectString nodes)
  end.

(** ** isLoginForm *)

Definition keywords : list string :=
  ["login"; "log-in"; "sign-in"; "signin"; "sign_in"; "auth"; "authenticate";
   "authentication"; "account"; "passwd"].

Definition formAttrs (form : Form) : string :=
  JS.toLowerCase
    (JS.join " " [JS.or_empty (formAttribute form "id");
                  JS.or_empty (formAttribute form "name");
                  JS.or_empty (formAttribute form "class");
                  JS.or_empty (formAttribute form "action")]).

Definition typeOf (el : Element) : string :=
  JS.toLowerCase (JS.or_empty (getAttribute el "type")).

Definition isTextInput (el : Element) : bool :=
  let type := typeOf el in
  bool_decide (type ∈ ["text"; "email"; "tel"; "phone"; "number"]) || negb (JS.truthy type).

Definition isEmailInput (el : Element) : bool :=
  let nameAttr := JS.toLowerCase (JS.or_empty (getAttribute el "name")) in
  let idAttr := JS.toLowerCase (JS.or_empty (getAttribute el "id")) in
  let type := typeOf el in
  bool_decide (type = "email") || JS.includes nameAttr "email" || JS.includes idAttr "email".

Definition isUserInput (el : Element) : bool :=
  let nameAttr := JS.toLowerCase (JS.or_empty (getAttribute el "name")) in
  let idAttr := JS.toLowerCase (JS.or_empty (getAttribute el "id")) in
  JS.includes nameAttr "user" || JS.includes idAttr "user" ||
  JS.includes nameAttr "login" || JS.includes idAttr "login".

(** The three methods the classifier calls on the form, [querySelector],
    [getAttribute] and [querySelectorAll], each raise when a control
    shadows them. *)
Definition isLoginForm (extensionSettings : Settings) (form : Form) : JS.completion bool :=
  if bool_decide (ignoreLoginForms extensionSettings = Some false) then JS.Normal false
  else
    found ← method form "querySelector" (querySelector_password form);
    if bool_decide (is_Some found) then JS.Normal true
    else
      attrs ← method form "getAttribute" (formAttrs form);
      if existsb (λ k, JS.includes attrs k) keywords then JS.Normal true
      else
        inputs ← method form "querySelectorAll" (querySelectorAll "input" form);
        let textInputs := List.filter isTextInput inputs in
        let emailInputs := List.filter isEmailInput inputs in
        let passwordInputs :=
          List.filter (λ el, bool_decide (typeOf el = "password")) inputs in
        textAreas ← method form "querySelectorAll" (querySelectorAll "textarea" form);
        if (List.length passwordInputs =? 0)%nat && (List.length textAreas =? 0)%nat then
          if (1 <=? List.length emailInputs)%nat && (List.length textInputs <=? 1)%nat
             && (List.length inputs <=? 3)%nat
          then JS.Normal true
          else
            let userInputs := List.filter isUserInput inputs in
            if (1 <=? List.length userInputs)%nat && (List.length inputs <=? 3)%nat
            then JS.Normal true
            else JS.Normal false
        else JS.Normal false.

(** ** saveFormData *)

(** [tag !== 'input' && tag !== 'textarea' && tag !== 'select'] *)
Definition unsupportedTag (tag : string) : bool :=
  negb (bool_decide (tag = "input")) && negb (bool_decide (tag = "textarea"))
  && negb (bool_decide (tag = "select")).

(** [el.type === 'checkbox' || el.type === 'radio'] *)
Definition isCheckable (el : Element) : bool :=
  bool_decide (el_type el = "checkbox") || bool_decide (el_type el = "radio").

(** The key [saveFormData] files a control under. *)
Definition saveFieldKey (el : Element) (tag : string) (index : nat) : string :=
  let fieldKey :=
    JS.or_else (JS.or_else (el_name el) (el_id el)) (tag +:+ "_" +:+ pretty index) in
  if isCheckable el then
    if JS.truthy (el_name el) then el_name el +:+ "_" +:+ el_value el else fieldKey
  else fieldKey.

(** One turn of the [forEach] callback of [saveFormData]. *)
Definition saveField (data : JS.object) (el : Element) (index : nat) : JS.object :=
  if negb (shouldSaveField el) then data
  else
    let tag := JS.toLowerCase (el_tagName el) in
    if unsupportedTag tag then data
    else
      let fieldKey := saveFieldKey el tag index in
      if isCheckable el then JS.set fieldKey (JS.VBool (el_checked el)) data
      else JS.set fieldKey (JS.VStr (el_value el)) data.

Fixpoint forEachSave (els : list Element) (index : nat) (data : JS.object) : JS.object :=
  match els with
  | [] => data
  | el :: rest => forEachSave rest (S index) (saveField data el index)
  end.

(** [now] is the reading of [Date.now()]; the write replaces the whole
    entry under the form key.  The result is the store after the call; a
    TypeError of the classifier or of the key ends the call before the
    write. *)
Definition saveFormData (extensionSettings : Settings) (doc : Document) (now : Z)
    (form : Form) (storage : Storage) : JS.completion Storage :=
  login ← isLoginForm extensionSettings form;
  if login : bool then JS.Normal storage
  else
    key ← getFormKey doc form;
    let data := forEachSave (elementsOf form) 0 ∅ in
    JS.Normal (<[key := {| data := data; timestamp := now |}]> storage).

(** ** restoreFormData *)

(** The key [restoreFormData] looks a control up under. *)
Definition restoreFieldKey (el : Element) (tag : string) (index : nat) : string :=
  let fieldKey :=
    JS.or_else (JS.or_else (el_name el) (el_id el)) (tag +:+ "_" +:+ pretty index) in
  if isCheckable el then
    if JS.truthy (el_name el) then el_name el +:+ "_" +:+ el_value el else fieldKey
  else fieldKey.

(** [el.checked = b] and [el.value = v], as plain assignments: the model
    stores what is assigned and touches no other control (a browser also
    unchecks the other radios of a group, and may sanitise a value the
    control cannot hold). *)
Definition setChecked (el : Element) (b : bool) : Element :=
  {| el_tagName := el_tagName el; el_attributes := el_attributes el;
     el_name := el_name el; el_id := el_id el; el_type := el_type el;
     el_value := el_value el; el_checked := b;
     el_autocomplete := el_autocomplete el |}.

Definition setValue (el : Element) (v : string) : Element :=
  {| el_tagName := el_tagName el; el_attributes := el_attributes el;
     el_name := el_name el; el_id := el_id el; el_type := el_type el;
     el_value := v; el_checked := el_checked el;
     el_autocomplete := el_autocomplete el |}.

(** One turn of the [forEach] callback of [restoreFormData]: the control
    after the turn and whether it was assigned, or the TypeError of the
    [hasOwnProperty] call. *)
Definition restoreField (saved : JS.object) (el : Element) (index : nat)
  : JS.completion (Element * bool) :=
  if negb (shouldSaveField el) then JS.Normal (el, false)
  else
    let tag := JS.toLowerCase (el_tagName el) in
    if unsupportedTag tag then JS.Normal (el, false)
    else
      let fieldKey := restoreFieldKey el tag index in
      match JS.hasOwnProperty saved fieldKey with
      | JS.Throw => JS.Throw
      | JS.Normal false => JS.Normal (el, false)
      | JS.Normal true =>
          if isCheckable el
          then JS.Normal (setChecked el (JS.toBoolean (JS.get saved fieldKey)), true)
          else JS.Normal (setValue el (JS.toString (JS.get saved fieldKey)), true)
      end.

(** What the loop leaves behind: the controls, the positions it assigned
    (in order), and [restoredAny] unless the loop was cut short by a throw. *)
Record Loop : Type := mkLoop {
  l_elements : list Element;
  l_assigned : list nat;
  l_restoredAny : JS.completion bool
}.

Fixpoint forEachRestore (saved : JS.object) (els : list Element) (index : nat)
    (restoredAny : bool) : Loop :=
  match els with
  | [] => mkLoop [] [] (JS.Normal restoredAny)
  | el :: rest =>
      match restoreField saved el index with
      | JS.Throw => mkLoop (el :: rest) [] JS.Throw
      | JS.Normal (el', assigned) =>
          let r := forEachRestore saved rest (S index) (restoredAny || assigned) in
          mkLoop (el' :: l_elements r)
                 (if assigned then index :: l_assigned r else l_assigned r)
                 (l_restoredAny r)
      end
  end.

(** ** showRestoreNotification *)

Definition showRestoreNotification (doc : Document) : Document :=
  if negb (notices doc =? 0)%nat then doc
  else {| origin := origin doc; pathname := pathname doc; forms := forms doc;
          notices := S (notices doc) |}.

(** [notice.remove()], run by the timeout 4000 ms after the notice went up. *)
Definition removeNotice (doc : Document) : Document :=
  {| origin := origin doc; pathname := pathname doc; forms := forms doc;
     notices := pred (notices doc) |}.

Definition withElements (form : Form) (els : list Element) : Form :=
  {| f_node := f_node form; f_attributes := f_attributes form;
     f_descendants := f_descendants form; f_elements := els;
     f_pastNames := f_pastNames form |}.

(** The controls the loop went over are the form's own objects.  When
    [elements] is shadowed the loop saw only the nodes that answer to that
    name, and what it assigned goes back to their places among the listed
    controls. *)
Fixpoint writeBack (visited : Element → bool) (controls updated : list Element)
  : list Element :=
  match controls with
  | [] => []
  | el :: rest =>
      if visited el then
        match updated with
        | el' :: updated' => el' :: writeBack visited rest updated'
        | [] => el :: rest
        end
      else el :: writeBack visited rest updated
  end.

Definition restoredControls (form : Form) (updated : list Element) : list Element :=
  match named form "elements" with
  | [] => updated
  | _ => writeBack (answersTo "elements") (f_elements form) updated
  end.

(** The page after a restore: the form, the document, the storage, the
    positions (in the array the loop went over) of the controls that were
    assigned, and how the call to [restoreFormData] itself ended.  The
    storage callback runs later; a TypeError inside it cuts the callback
    short and reaches no caller. *)
Record Restored : Type := mkRestored {
  r_form : Form;
  r_doc : Document;
  r_storage : Storage;
  r_assigned : list nat;
  r_call : JS.completion unit
}.

(** [(extensionSettings.retentionDays || 30) * 24 * 60 * 60 * 1000] *)
Definition retentionMs (extensionSettings : Settings) : Z :=
  ((if (retentionDays extensionSettings =? 0)%Z then 30
    else retentionDays extensionSettings) * 24 * 60 * 60 * 1000)%Z.

(** The callback handed to [chrome.storage.local.get(key, ...)], run on
    [result[key]].  [entry.data] is an object, hence truthy, so [saved] is
    [entry.data]. *)
Definition restoreCallback (extensionSettings : Settings) (doc : Document) (now : Z)
    (form : Form) (key : string) (storage : Storage) (result : option Entry) : Restored :=
  match result with
  | None => mkRestored form doc storage [] (JS.Normal tt)
  | Some entry =>
      let saved := data entry in
      if negb (timestamp entry =? 0)%Z &&
         (now - timestamp entry >? retentionMs extensionSettings)%Z
      then mkRestored form doc (delete key storage) [] (JS.Normal tt)
      else
        let r := forEachRestore saved (elementsOf form) 0 false in
        let form' := withElements form (restoredControls form (l_elements r)) in
        match l_restoredAny r with
        | JS.Normal true =>
            mkRestored form' (showRestoreNotification doc) storage (l_assigned r)
                       (JS.Normal tt)
        | _ => mkRestored form' doc storage (l_assigned r) (JS.Normal tt)
        end
  end.

Definition restoreFormData (extensionSettings : Settings) (doc : Document) (now : Z)
    (form : Form) (storage : Storage) : Restored :=
  match isLoginForm extensionSettings form with
  | JS.Throw => mkRestored form doc storage [] JS.Throw
  | JS.Normal true => mkRestored form doc storage [] (JS.Normal tt)
  | JS.Normal false =>
      match getFormKey doc form with
      | JS.Throw => mkRestored form doc storage [] JS.Throw
      | JS.Normal key =>
          restoreCallback extensionSettings doc now form key storage (storage !! key)
      end
  end.

(** ** monitorForm and debounce *)

(** One monitored form: its current DOM state, the [_autoRecoveryAttached]
    property the script sets on it, whether the [input] and [change]
    listeners are attached, the deadline of the pending debounce timeout,
    and the storage. *)
Record Monitor : Type := mkMonitor {
  m_form : Form;
  m_attached : bool;
  m_listening : bool;
  m_timeout : option Z;
  m_storage : Storage
}.

Inductive Event : Type :=
| EvMonitor                 (* monitorForm(form) is called *)
| EvEdit (now : Z)          (* an input or change event reaches the form *)
| EvTimer (now : Z)         (* the timer queue is served at time now *)
| EvMutate (form' : Form).  (* the page rewrites the form's attributes or subtree *)

(** [form._autoRecoveryAttached] reads as the property the script has set,
    or else as whatever control answers to that name.  The listeners go on
    through [form.addEventListener], and the closing log line computes the
    form key once more; either may raise. *)
Definition monitorForm (extensionSettings : Settings) (doc : Document) (st : Monitor)
  : Monitor * JS.completion unit :=
  if m_attached st
     || negb (bool_decide (named (m_form st) "_autoRecoveryAttached" = []))
  then (st, JS.Normal tt)
  else
    match isLoginForm extensionSettings (m_form st) with
    | JS.Throw => (st, JS.Throw)
    | JS.Normal true => (st, JS.Normal tt)
    | JS.Normal false =>
        let flagged :=
          mkMonitor (m_form st) true (m_listening st) (m_timeout st) (m_storage st) in
        match method (m_form st) "addEventListener" tt with
        | JS.Throw => (flagged, JS.Throw)
        | JS.Normal _ =>
            (mkMonitor (m_form st) true true (m_timeout st) (m_storage st),
             _ ← getFormKey doc (m_form st); JS.Normal tt)
        end
    end.

(** [debouncedSave]: drop the pending timeout, arm a new one 500 ms out. *)
Definition debouncedSave (now : Z) (st : Monitor) : Monitor :=
  mkMonitor (m_form st) (m_attached st) (m_listening st) (Some (now + 500)%Z)
            (m_storage st).

Definition mutate (form' : Form) (form : Form) : Form :=
  {| f_node := f_node form; f_attributes := f_attributes form';
     f_descendants := f_descendants form'; f_elements := f_elements form';
     f_pastNames := f_pastNames form' |}.

Definition step (extensionSettings : Settings) (doc : Document) (st : Monitor)
    (ev : Event) : Monitor :=
  match ev with
  | EvMonitor => (monitorForm extensionSettings doc st).1
  | EvEdit now => if m_listening st then debouncedSave now st else st
  | EvTimer now =>
      match m_timeout st with
      | Some deadline =>
          if (deadline <=? now)%Z
          then mkMonitor (m_form st) (m_attached st) (m_listening st) None
                 (JS.orElse (saveFormData extensionSettings doc now (m_form st)
                               (m_storage st))
                            (m_storage st))
          else st
      | None => st
      end
  | EvMutate form' =>
      mkMonitor (mutate form' (m_form st)) (m_attached st) (m_listening st)
                (m_timeout st) (m_storage st)
  end.

Definition run (extensionSettings : Settings) (doc : Document) (evs : list Event)
    (st : Monitor) : Monitor :=
  fold_left (step extensionSettings doc) evs st.

(** ** Statements that follow the specification's wording *)

(** A control is excluded when it is an input of type password, hidden or
    file, or has [autocomplete] "off", or carries [data-autorecovery] equal
    to the string "false". *)
Definition excluded (el : Element) : Prop :=
  (JS.toLowerCase (el_tagName el) = "input" ∧
   typeOf el ∈ ["password"; "hidden"; "file"]) ∨
  el_autocomplete el = "off" ∨
  getAttribute el "data-autorecovery" = Some "false".

(** The field key in the specification's words: the name, else the id, else
    [tag_index]; a checkbox or radio with a name uses [name_value]. *)
Definition fieldKey_spec (el : Element) (tag : string) (index : nat) : string :=
  if (bool_decide (el_type el = "checkbox") || bool_decide (el_type el = "radio"))
     && negb (bool_decide (el_name el = ""))
  then el_name el +:+ "_" +:+ el_value el
  else if negb (bool_decide (el_name el = "")) then el_name el
  else if negb (bool_decide (el_id el = "")) then el_id el
  else tag +:+ "_" +:+ pretty index.



(** No control or image of the form answers to the name [p], so [form.p] is
    the built-in of that name. *)
Definition unshadowed (form : Form) (p : string) : Prop := named form p = [].

(** The lower-cased value of an attribute, empty when there is none. *)
Definition lowered (el : Element) (a : string) : string :=
  JS.toLowerCase (default "" (el_attributes el !! a)).


(** Email-like: the type is email, or the name or the id contains
    "email". *)
Definition emailLike (el : Element) : Prop :=
  lowered el "type" = "email" ∨
  JS.includes (lowered el "name") "email" = true ∨
  JS.includes (lowered el "id") "email" = true.

(** User-like: the name or the id contains "user" or "login". *)
Definition userLike (el : Element) : Prop :=
  JS.includes (lowered el "name") "user" = true ∨
  JS.includes (lowered el "name") "login" = true ∨
  JS.includes (lowered el "id") "user" = true ∨
  JS.includes (lowered el "id") "login" = true.

(** Text-like as the specification has it: the type is one of text, email,
    tel, number, or there is no type attribute. *)
Definition textLike_stated (el : Element) : Prop :=
  el_attributes el !! "type" = None ∨
  lowered el "type" ∈ ["text"; "email"; "tel"; "number"].

(** Text-like as amended: the type is one of text, email, tel, phone,
    number, or there is no type attribute or an empty one. *)
Definition textLike_amended (el : Element) : Prop :=
  lowered el "type" = "" ∨
  lowered el "type" ∈ ["text"; "email"; "tel"; "phone"; "number"].

Global Instance emailLike_dec (el : Element) : Decision (emailLike el).
Proof. unfold emailLike. apply _. Defined.

Global Instance userLike_dec (el : Element) : Decision (userLike el).
Proof. unfold userLike. apply _. Defined.

Global Instance textLike_stated_dec (el : Element) : Decision (textLike_stated el).
Proof. unfold textLike_stated. apply _. Defined.

Global Instance textLike_amended_dec (el : Element) : Decision (textLike_amended el).
Proof. unfold textLike_amended. apply _. Defined.





(** An event keeps a login form a login form when every rewrite of the form
    it carries is itself classified as one. *)
Definition staysLogin (extensionSettings : Settings) (ev : Event) : Prop :=
  match ev with
  | EvMutate form' => isLoginForm extensionSettings form' = JS.Normal true
  | _ => True
  end.

(** ** The round trip *)







(** ** Sample pages *)

Definition optOutSettings : Settings :=
  {| enabled := true; retentionDays := 30; ignoreDomains := [];
     ignoreLoginForms := Some false |}.

Definition examplePage : Document :=
  {| origin := "https://example.com"; pathname := "/page"; forms := [4; 9; 2];
     notices := 0 |}.

(** A feedback form that also asks for a password, and a login box. *)
Definition passwordField : Element :=
  mkElement "INPUT" {[ "type" := "password"; "name" := "pw" ]} "pw" "" "password" "" false "".

Definition commentBox : Element :=
  mkElement "TEXTAREA" {[ "name" := "comment" ]} "comment" "" "textarea" "" false "".

Definition feedbackWithPassword : Form :=
  mkForm 0 {[ "id" := "feedback" ]}
         [commentBox; passwordField] [commentBox; passwordField] [].

Definition loginBox : Form :=
  mkForm 0 {[ "id" := "login-form"; "action" := "/account/signin" ]}
         [passwordField] [passwordField] [].






(** A control that opts out, and a plain one. *)
Definition optedOutArea : Element :=
  mkElement "TEXTAREA" {[ "data-autorecovery" := "false" ]} "" "" "textarea" "" false "".

Definition plainSelect : Element :=
  mkElement "SELECT" {[ "name" := "country" ]} "country" "" "select-one" "fr" false "".

(** The contact form [<form id="contact"><input name="msg"></form>] with
    "hi" typed in, the same form emptied by a reload, a second form of the
    page, and a form with neither id nor name. *)
Definition msgField (v : string) : Element :=
  mkElement "INPUT" {[ "name" := "msg" ]} "msg" "" "text" v false "".

Definition contactForm : Form :=
  mkForm 9 {[ "id" := "contact" ]} [msgField "hi"] [msgField "hi"] [].

Definition contactFormReloaded : Form :=
  mkForm 9 {[ "id" := "contact" ]} [msgField ""] [msgField ""] [].

Definition answerField (v : string) : Element :=
  mkElement "TEXTAREA" {[ "name" := "answer" ]} "answer" "" "textarea" v false "".

Definition surveyFormReloaded : Form :=
  mkForm 4 {[ "id" := "survey" ]} [answerField ""] [answerField ""] [].


(** Snapshots of the two forms taken at [savedAt], a reload one minute
    later, and the clock 31 days later. *)
Definition savedAt : Z := 1700000000000.
Definition reloadedAt : Z := 1700000060000.
Definition dayThirtyOne : Z := 1700000000000 + 31 * 24 * 60 * 60 * 1000.

Definition twoSnapshots : Storage :=
  {[ "https://example.com/page::contact" :=
       {| data := {[ "msg" := JS.VStr "hi" ]}; timestamp := savedAt |};
     "https://example.com/page::survey" :=
       {| data := {[ "answer" := JS.VStr "fine" ]}; timestamp := savedAt |} ]}.

(** The contact form under watch, with a save pending, and the same form
    after the page has inserted a password input. *)
Definition watchedContact : Monitor :=
  {| m_form := contactForm; m_attached := true; m_listening := true;
     m_timeout := Some 1500%Z; m_storage := twoSnapshots |}.

Definition contactWithPassword : Form :=
  mkForm 9 {[ "id" := "contact" ]}
         [msgField "hi"; passwordField] [msgField "hi"; passwordField] [].










(** The feedback form again, with a text field called [querySelector]. *)
Definition selectorField : Element :=
  mkElement "INPUT" {[ "name" := "querySelector" ]} "querySelector" "" "text" "" false "".

Definition feedbackShadowed : Form :=
  mkForm 0 {[ "id" := "feedback" ]}
         [selectorField; passwordField] [selectorField; passwordField] [].




(** An order form with a field called [elements]. *)
Definition elementsField : Element :=
  mkElement "INPUT" {[ "name" := "elements" ]} "elements" "" "text" "3 items" false "".

Definition cartForm : Form :=
  mkForm 2 {[ "id" := "cart" ]}
         [elementsField; msgField "hi"] [elementsField; msgField "hi"] [].

(** ** Helper lemmas *)



Lemma find_is_Some {A} (p : A → bool) (l : list A) (x : A) :
  x ∈ l → p x = true → is_Some (List.find p l).
Proof.
  intros Hin Hp. destruct (List.find p l) eqn:Hf; [by eexists|].
  apply list_elem_of_In in Hin.
  pose proof (find_none p l Hf x Hin) as Hn. congruence.
Qed.

(** Sequencing after a call that returned, and after one that threw. *)
Lemma bind_Normal {A B} (a : A) (k : A → JS.completion B) : (JS.Normal a ≫= k) = k a.
Proof. reflexivity. Qed.

Lemma bind_Throw {A B} (k : A → JS.completion B) : (JS.Throw ≫= k) = JS.Throw.
Proof. reflexivity. Qed.

(** A method call on a form nothing shadows goes through. *)
Lemma method_unshadowed {A} (form : Form) (p : string) (result : A) :
  unshadowed form p → method form p result = JS.Normal result.
Proof. unfold unshadowed, method. by intros ->. Qed.


(** [call H] runs the next method call of the goal, [H] saying that the
    method is not shadowed. *)
Ltac call H :=
  match type of H with
  | unshadowed ?form ?p => rewrite !(method_unshadowed form p _ H), ?bind_Normal
  end.


(** ** The contact-form scenario, run on the definitions *)

Example scenario_key :
  getFormKey examplePage contactForm = JS.Normal "https://example.com/page::contact".
Proof. reflexivity. Qed.

Example scenario_save :
  saveFormData defaultSettings examplePage savedAt contactForm ∅
  = JS.Normal {[ "https://example.com/page::contact" :=
                   {| data := {[ "msg" := JS.VStr "hi" ]}; timestamp := savedAt |} ]}.
Proof. vm_compute. reflexivity. Qed.

Example scenario_reload :
  let r := restoreFormData defaultSettings examplePage reloadedAt contactFormReloaded
             {[ "https://example.com/page::contact" :=
                  {| data := {[ "msg" := JS.VStr "hi" ]}; timestamp := savedAt |} ]} in
  f_elements (r_form r) = [msgField "hi"] ∧ notices (r_doc r) = 1%nat.
Proof. vm_compute. split; reflexivity. Qed.

(** A field named [__proto__] never reaches the snapshot, and a field named
    [hasOwnProperty] makes the restore loop throw before it assigns. *)
Example proto_field_dropped :
  JS.set "__proto__" (JS.VStr "x") ∅ !! "__proto__" = None.
Proof. reflexivity. Qed.

Example shadowed_lookup_throws :
  JS.hasOwnProperty {[ "hasOwnProperty" := JS.VStr "x" ]} "msg" = JS.Throw.
Proof. reflexivity. Qed.

(** A field named [elements] hides the controls from both loops: the
    snapshot is empty and nothing is restored. *)
Example elements_field_hides_controls :
  saveFormData defaultSettings examplePage savedAt cartForm ∅
  = JS.Normal {[ "https://example.com/page::cart" := {| data := ∅; timestamp := savedAt |} ]}.
Proof. vm_compute. reflexivity. Qed.

(** ** Classification *)

(** With [ignoreLoginForms] true, a form that has a descendant input whose
    type attribute is "password" and no control called [querySelector] is
    classified as a login form, whatever its other attributes and
    contents. *)
Lemma isLoginForm_password_input (s : Settings) (form : Form) (el : Element) :
  ignoreLoginForms s = Some true →
  unshadowed form "querySelector" →
  el ∈ f_descendants form →
  JS.toLowerCase (el_tagName el) = "input" →
  getAttribute el "type" = Some "password" →
  isLoginForm s form = JS.Normal true.
Proof.
  intros Hs Hq Hin Htag Hty. unfold isLoginForm.
  rewrite Hs. rewrite bool_decide_eq_false_2 by discriminate.
  call Hq. rewrite bool_decide_eq_true_2; [done|].
  apply find_is_Some with el; [done|].
  unfold isPasswordInput, hasTag. rewrite Htag, Hty. reflexivity.
Qed.

(** C1. The claim fails on a form whose controls include one called
    [querySelector]: the feedback form below has a password input and
    [ignoreLoginForms] is true, yet the call raises a TypeError instead of
    returning true, because [form.querySelector] is the control. *)
Theorem isLoginForm_password_shadowed :
  ignoreLoginForms defaultSettings = Some true ∧
  passwordField ∈ f_descendants feedbackShadowed ∧
  getAttribute passwordField "type" = Some "password" ∧
  isLoginForm defaultSettings feedbackShadowed = JS.Throw ∧
  isLoginForm defaultSettings feedbackWithPassword = JS.Normal true.
Proof.
  split; [reflexivity|]. split; [apply list_elem_of_further, list_elem_of_here|].
  repeat split; reflexivity.
Qed.

(** C2. With [ignoreLoginForms] false, no form is classified as a login
    form, password inputs and auth keywords notwithstanding. *)
Theorem isLoginForm_opt_out (s : Settings) (form : Form) :
  ignoreLoginForms s = Some false → isLoginForm s form = JS.Normal false.
Proof.
  intros Hs. unfold isLoginForm. rewrite Hs.
  by rewrite bool_decide_eq_true_2.
Qed.

Lemma isLoginForm_opt_out_witness :
  isLoginForm defaultSettings loginBox = JS.Normal true ∧
  isLoginForm optOutSettings loginBox = JS.Normal false.
Proof.
  split; [reflexivity|].
  apply (isLoginForm_opt_out optOutSettings loginBox). reflexivity.
Defined.

(** ** The structural rule *)












(** ** Eligibility *)

(** C4. The eligibility predicate rejects a control exactly when it bears an
    exclusion marker: an input of type password, hidden or file, an
    [autocomplete] of "off", or [data-autorecovery] equal to "false"; every
    control without these markers is accepted. *)
Theorem shouldSaveField_excluded (el : Element) :
  (shouldSaveField el = false ↔ excluded el) ∧
  (shouldSaveField el = true ↔ ¬ excluded el).
Proof.
  assert (shouldSaveField el = false ↔ excluded el) as Hfalse.
  { unfold shouldSaveField, excluded, typeOf.
    repeat case_bool_decide; simpl; split; intros Hx; try done; try tauto.
    all: destruct Hx as [[Hx1 Hx2]|[Hx|Hx]]; done. }
  split; [done|].
  rewrite <- Hfalse. by destruct (shouldSaveField el).
Qed.

Lemma shouldSaveField_excluded_witness :
  shouldSaveField optedOutArea = false ∧ shouldSaveField passwordField = false ∧
  shouldSaveField plainSelect = true.
Proof.
  split; [|split].
  - apply (proj1 (shouldSaveField_excluded optedOutArea)).
    right. right. reflexivity.
  - apply (proj1 (shouldSaveField_excluded passwordField)).
    left. split; [reflexivity|]. apply (bool_decide_unpack _). reflexivity.
  - apply (proj2 (shouldSaveField_excluded plainSelect)).
    intros [[Htag _]|[Hoff|Hattr]]; discriminate.
Defined.

(** ** Field keys *)

(** C6. At any position of a form, the save path and the restore path derive
    the same field key, and it is the one the specification describes. *)
Theorem fieldKey_save_restore (el : Element) (tag : string) (index : nat) :
  saveFieldKey el tag index = restoreFieldKey el tag index ∧
  saveFieldKey el tag index = fieldKey_spec el tag index.
Proof.
  split; [reflexivity|].
  unfold saveFieldKey, fieldKey_spec, isCheckable, JS.or_else, JS.truthy.
  destruct (bool_decide (el_type el = "checkbox") || bool_decide (el_type el = "radio"));
    simpl; destruct (decide (el_name el = "")) as [Hn|Hn];
    destruct (decide (el_id el = "")) as [Hi|Hi];
    rewrite ?Hn, ?Hi; simpl;
    rewrite ?(bool_decide_eq_false_2 _ Hn), ?(bool_decide_eq_false_2 _ Hi); simpl;
    rewrite ?(bool_decide_eq_false_2 _ Hn), ?(bool_decide_eq_false_2 _ Hi); simpl;
    reflexivity.
Qed.

(** ** Form keys *)





(** ** Expiry *)

(** The storage callback on an expired entry: no control is touched and the
    key is removed. *)
Lemma restoreCallback_expired (s : Settings) (doc : Document) (now : Z)
    (form : Form) (key : string) (storage : Storage) (entry : Entry) :
  retentionDays s ≠ 0%Z →
  timestamp entry ≠ 0%Z →
  (now - timestamp entry > retentionDays s * 24 * 60 * 60 * 1000)%Z →
  restoreCallback s doc now form key storage (Some entry) =
    mkRestored form doc (delete key storage) [] (JS.Normal tt).
Proof.
  intros Hdays Hts Hold. unfold restoreCallback, retentionMs.
  destruct (Z.eqb_spec (retentionDays s) 0) as [?|_]; [done|].
  destruct (Z.eqb_spec (timestamp entry) 0) as [?|_]; [done|].
  destruct (Z.gtb_spec (now - timestamp entry) (retentionDays s * 24 * 60 * 60 * 1000))
    as [_|Hle]; [|lia].
  reflexivity.
Qed.

(** C8. When the stored snapshot of a form is older than [retentionDays]
    days at restore time, the restore leaves every control as it was, makes
    no assignment, shows no notice, and deletes the snapshot's key. *)
Theorem restoreFormData_expired (s : Settings) (doc : Document) (now : Z)
    (form : Form) (storage : Storage) (key : string) (entry : Entry) :
  isLoginForm s form = JS.Normal false →
  getFormKey doc form = JS.Normal key →
  storage !! key = Some entry →
  retentionDays s ≠ 0%Z →
  timestamp entry ≠ 0%Z →
  (now - timestamp entry > retentionDays s * 24 * 60 * 60 * 1000)%Z →
  let r := restoreFormData s doc now form storage in
  r_assigned r = [] ∧ r_form r = form ∧ r_doc r = doc ∧
  r_storage r = delete key storage.
Proof.
  intros Hlogin Hkey Hget Hdays Hts Hold. unfold restoreFormData.
  rewrite Hlogin, Hkey, Hget.
  by rewrite (restoreCallback_expired s doc now form _ storage entry Hdays Hts Hold).
Qed.

Lemma restoreFormData_expired_witness :
  let r := restoreFormData defaultSettings examplePage dayThirtyOne
             contactFormReloaded twoSnapshots in
  r_assigned r = [] ∧ r_form r = contactFormReloaded ∧ r_doc r = examplePage ∧
  r_storage r = delete "https://example.com/page::contact" twoSnapshots.
Proof.
  refine (restoreFormData_expired defaultSettings examplePage dayThirtyOne
            contactFormReloaded twoSnapshots "https://example.com/page::contact"
            {| data := {[ "msg" := JS.VStr "hi" ]}; timestamp := savedAt |}
            _ _ _ _ _ _).
  - reflexivity.
  - reflexivity.
  - reflexivity.
  - vm_compute. discriminate.
  - vm_compute. discriminate.
  - vm_compute. reflexivity.
Defined.

(** ** The restore loop and the notice *)

(** A saved record that shadows [hasOwnProperty] stops the loop at the first
    control it looks up: nothing is ever assigned. *)
Lemma forEachRestore_shadowed (saved : JS.object) (els : list Element)
    (index : nat) (b : bool) :
  is_Some (saved !! "hasOwnProperty") →
  l_assigned (forEachRestore saved els index b) = [] ∧
  l_elements (forEachRestore saved els index b) = els ∧
  (l_restoredAny (forEachRestore saved els index b) = JS.Throw ∨
   l_restoredAny (forEachRestore saved els index b) = JS.Normal b).
Proof.
  intros Hsh. revert index b.
  induction els as [|el els IH]; intros index b; simpl; [by auto|].
  unfold restoreField, JS.hasOwnProperty.
  rewrite (bool_decide_eq_true_2 _ Hsh).
  destruct (negb (shouldSaveField el)); simpl.
  - rewrite orb_false_r.
    destruct (IH (S index) b) as (Ha & He & Hr). rewrite Ha, He. auto.
  - destruct (unsupportedTag (JS.toLowerCase (el_tagName el))); simpl; [|by auto].
    rewrite orb_false_r.
    destruct (IH (S index) b) as (Ha & He & Hr). rewrite Ha, He. auto.
Qed.

(** Otherwise no turn throws, *)
Lemma restoreField_normal (saved : JS.object) (el : Element) (index : nat) :
  saved !! "hasOwnProperty" = None →
  ∃ el' assigned, restoreField saved el index = JS.Normal (el', assigned).
Proof.
  intros Hsh. unfold restoreField, JS.hasOwnProperty.
  rewrite bool_decide_eq_false_2 by (rewrite Hsh; by intros [? ?]).
  repeat match goal with
         | |- context [if ?c then _ else _] => destruct c
         end; eauto.
Qed.

(** the loop runs to its end, and [restoredAny] records whether a control
    was assigned. *)
Lemma forEachRestore_flag (saved : JS.object) (els : list Element)
    (index : nat) (b : bool) :
  saved !! "hasOwnProperty" = None →
  l_restoredAny (forEachRestore saved els index b) =
    JS.Normal (b || negb (bool_decide (l_assigned (forEachRestore saved els index b) = []))).
Proof.
  intros Hsh. revert index b.
  induction els as [|el els IH]; intros index b; simpl.
  - by rewrite orb_false_r.
  - destruct (restoreField_normal saved el index Hsh) as (el' & assigned & ->).
    simpl. rewrite IH. destruct assigned; simpl.
    + by rewrite !orb_true_r.
    + by rewrite orb_false_r.
Qed.

Lemma forEachRestore_restoredAny (saved : JS.object) (els : list Element) :
  l_restoredAny (forEachRestore saved els 0 false) = JS.Normal true ↔
  l_assigned (forEachRestore saved els 0 false) ≠ [].
Proof.
  destruct (saved !! "hasOwnProperty") as [v|] eqn:Hsh.
  - destruct (forEachRestore_shadowed saved els 0 false) as (Ha & _ & Hr); [by eexists|].
    rewrite Ha. split; [|done]. destruct Hr as [-> | ->]; discriminate.
  - rewrite (forEachRestore_flag saved els 0 false Hsh). simpl.
    case_bool_decide; simpl; split; intros Hx; done.
Qed.

(** What a call to [restoreFormData] comes down to. *)
Lemma restoreFormData_cases (s : Settings) (doc : Document) (now : Z)
    (form : Form) (storage : Storage) :
  let r := restoreFormData s doc now form storage in
  (r_form r = form ∧ r_doc r = doc ∧ r_assigned r = [] ∧
   (r_storage r = storage ∨
    ∃ key, getFormKey doc form = JS.Normal key ∧ r_storage r = delete key storage)) ∨
  (∃ key entry,
     isLoginForm s form = JS.Normal false ∧
     getFormKey doc form = JS.Normal key ∧
     storage !! key = Some entry ∧
     let lp := forEachRestore (data entry) (elementsOf form) 0 false in
     r_form r = withElements form (restoredControls form (l_elements lp)) ∧
     r_doc r = (if bool_decide (l_assigned lp = []) then doc
                else showRestoreNotification doc) ∧
     r_assigned r = l_assigned lp ∧
     r_storage r = storage).
Proof.
  unfold restoreFormData.
  destruct (isLoginForm s form) as [[|]|] eqn:Hlogin; simpl; [by auto 10| |by auto 10].
  destruct (getFormKey doc form) as [key|] eqn:Hkey; simpl; [|by auto 10].
  unfold restoreCallback.
  destruct (storage !! key) as [entry|] eqn:Hget; simpl; [|by auto 10].
  destruct (negb _ && _); simpl; [by eauto 10|].
  right. exists key, entry. repeat (split; [done|]).
  pose proof (forEachRestore_restoredAny (data entry) (elementsOf form)) as Hany.
  destruct (l_restoredAny _) as [[|]|] eqn:Hr; simpl.
  - rewrite bool_decide_eq_false_2; [done|]. by apply Hany.
  - rewrite bool_decide_eq_true_2; [done|].
    destruct (decide (l_assigned (forEachRestore (data entry) (elementsOf form) 0 false) = []))
      as [|Hne]; [done|]. apply Hany in Hne. discriminate.
  - rewrite bool_decide_eq_true_2; [done|].
    destruct (decide (l_assigned (forEachRestore (data entry) (elementsOf form) 0 false) = []))
      as [|Hne]; [done|]. apply Hany in Hne. discriminate.
Qed.

(** Which document a restore leaves behind. *)
Lemma restoreFormData_doc (s : Settings) (doc : Document) (now : Z)
    (form : Form) (storage : Storage) :
  r_doc (restoreFormData s doc now form storage) =
    if bool_decide (r_assigned (restoreFormData s doc now form storage) = [])
    then doc else showRestoreNotification doc.
Proof.
  destruct (restoreFormData_cases s doc now form storage)
    as [(_ & -> & -> & _)|(key & entry & _ & _ & _ & _ & -> & -> & _)]; done.
Qed.

(** C9, as amended. A restore that assigns no field leaves the document
    alone; a restore that assigns at least one field adds exactly one notice
    when none is visible, and adds none when one is already visible. *)
Theorem restore_notice (s : Settings) (doc : Document) (now : Z)
    (form : Form) (storage : Storage) :
  let r := restoreFormData s doc now form storage in
  (r_assigned r = [] → r_doc r = doc) ∧
  (r_assigned r ≠ [] → notices doc = 0%nat → notices (r_doc r) = 1%nat) ∧
  (r_assigned r ≠ [] → notices doc ≠ 0%nat → r_doc r = doc).
Proof.
  intros r. subst r. rewrite restoreFormData_doc.
  split; [|split].
  - intros Ha. by rewrite (bool_decide_eq_true_2 _ Ha).
  - intros Ha Hn. rewrite (bool_decide_eq_false_2 _ Ha).
    unfold showRestoreNotification. by rewrite Hn.
  - intros Ha Hn. rewrite (bool_decide_eq_false_2 _ Ha).
    unfold showRestoreNotification.
    destruct (Nat.eqb_spec (notices doc) 0); [done|reflexivity].
Qed.

Lemma restore_notice_witness :
  let r := restoreFormData defaultSettings examplePage reloadedAt
             contactFormReloaded twoSnapshots in
  r_assigned r = [0%nat] ∧ notices (r_doc r) = 1%nat.
Proof.
  split; [reflexivity|].
  refine (proj1 (proj2 (restore_notice defaultSettings examplePage reloadedAt
                          contactFormReloaded twoSnapshots)) _ _).
  - vm_compute. discriminate.
  - reflexivity.
Defined.

(** C9, as stated, fails: on a page with two saved forms, the restore of the
    second form assigns a field while the notice of the first is still up,
    and fires none of its own. *)
Lemma second_restore_fires_no_notice :
  let r1 := restoreFormData defaultSettings examplePage reloadedAt
              contactFormReloaded twoSnapshots in
  let r2 := restoreFormData defaultSettings (r_doc r1) reloadedAt
              surveyFormReloaded (r_storage r1) in
  r_assigned r1 = [0%nat] ∧ notices (r_doc r1) = 1%nat ∧
  r_assigned r2 = [0%nat] ∧ f_elements (r_form r2) = [answerField "fine"] ∧
  (notices (r_doc r2) - notices (r_doc r1) = 0)%nat.
Proof. vm_compute. repeat split; reflexivity. Qed.

(** ** Saving a login form *)

Section Monitoring.

Variables (s : Settings) (doc : Document).

Lemma saveFormData_login (now : Z) (form : Form) (storage : Storage) :
  isLoginForm s form = JS.Normal true →
  saveFormData s doc now form storage = JS.Normal storage.
Proof. intros Hlogin. unfold saveFormData. by rewrite Hlogin. Qed.

(** The classification reads the attributes, the subtree and the controls,
    not the node. *)
Lemma isLoginForm_mutate (form' form : Form) :
  isLoginForm s (mutate form' form) = isLoginForm s form'.
Proof. reflexivity. Qed.

(** While the watched form is a login form, no event writes to the storage,
    sets the flag or changes whether the listeners are attached. *)
Lemma step_login (st : Monitor) (ev : Event) :
  isLoginForm s (m_form st) = JS.Normal true →
  staysLogin s ev →
  isLoginForm s (m_form (step s doc st ev)) = JS.Normal true ∧
  m_storage (step s doc st ev) = m_storage st ∧
  m_attached (step s doc st ev) = m_attached st ∧
  m_listening (step s doc st ev) = m_listening st.
Proof.
  intros Hlogin Hev. destruct ev as [|now|now|form']; simpl.
  - unfold monitorForm. rewrite Hlogin. by destruct (_ || _).
  - unfold debouncedSave. by destruct (m_listening st) eqn:Hl.
  - destruct (m_timeout st) as [deadline|]; [|by auto].
    destruct (deadline <=? now)%Z; [|by auto]. simpl.
    rewrite saveFormData_login by done. auto.
  - rewrite isLoginForm_mutate. auto.
Qed.

Lemma run_login (evs : list Event) (st : Monitor) :
  isLoginForm s (m_form st) = JS.Normal true →
  Forall (staysLogin s) evs →
  m_storage (run s doc evs st) = m_storage st ∧
  m_attached (run s doc evs st) = m_attached st ∧
  m_listening (run s doc evs st) = m_listening st.
Proof.
  intros Hlogin Hevs. revert st Hlogin.
  induction Hevs as [|ev evs Hev _ IH]; intros st Hlogin; [done|].
  destruct (step_login st ev Hlogin Hev) as (Hl & Hs & Ha & Hli).
  unfold run in *. simpl.
  destruct (IH _ Hl) as (-> & -> & ->). done.
Qed.

(** C10. A save re-evaluates the classification on the form as it is at that
    moment and writes nothing when it is a login form; so once a watched
    form has become a login form, no later edit or timer expiry persists
    it, although its listeners stay attached. *)
Theorem login_form_never_persisted (st : Monitor) (form' : Form) (evs : list Event) :
  isLoginForm s form' = JS.Normal true →
  Forall (staysLogin s) evs →
  (∀ now storage,
     saveFormData s doc now (mutate form' (m_form st)) storage = JS.Normal storage) ∧
  m_storage (run s doc (EvMutate form' :: evs) st) = m_storage st ∧
  m_attached (run s doc (EvMutate form' :: evs) st) = m_attached st ∧
  m_listening (run s doc (EvMutate form' :: evs) st) = m_listening st.
Proof.
  intros Hlogin Hevs. split.
  - intros now storage. apply saveFormData_login. by rewrite isLoginForm_mutate.
  - change (run s doc (EvMutate form' :: evs) st)
      with (run s doc evs (step s doc st (EvMutate form'))).
    destruct (run_login evs (step s doc st (EvMutate form'))) as (-> & -> & ->);
      [by rewrite <- Hlogin|done|].
    simpl. done.
Qed.

End Monitoring.

Lemma login_form_never_persisted_witness :
  let evs := [EvEdit 2000; EvTimer 2500; EvMutate loginBox; EvEdit 3000; EvTimer 9000] in
  isLoginForm defaultSettings (m_form watchedContact) = JS.Normal false ∧
  m_storage (run defaultSettings examplePage [EvTimer 1500] watchedContact) ≠ twoSnapshots ∧
  m_storage (run defaultSettings examplePage (EvMutate contactWithPassword :: evs)
               watchedContact) = twoSnapshots ∧
  m_attached (run defaultSettings examplePage (EvMutate contactWithPassword :: evs)
                watchedContact) = true ∧
  m_listening (run defaultSettings examplePage (EvMutate contactWithPassword :: evs)
                 watchedContact) = true.
Proof.
  intros evs. split; [reflexivity|]. split.
  { intros Heq.
    apply (f_equal (λ m : Storage, timestamp <$> m !! "https://example.com/page::contact")) in Heq.
    vm_compute in Heq. discriminate. }
  refine (proj2 (login_form_never_persisted defaultSettings examplePage watchedContact
                   contactWithPassword evs _ _)).
  - reflexivity.
  - repeat constructor.
Defined.

(** ** The round trip *)

























